(** * VectorWrapper.h: reading Matlab rows into vector-like classes

    A shallow embedding of [src/matlab/VectorWrapper.h] (Gerardus).  The
    header declares the class template [VectorWrapper], sixteen partial
    specialisations of it, and the free function templates the
    specialisations forward to.  The out-of-line definitions live in
    [VectorWrapper.hxx], which the header includes at its end. *)

From stdpp Require Import base decidable option list strings.

Open Scope nat_scope.

(** ** C++ types used as template arguments *)

Module Cpp.

(** The fundamental types, each a type of its own in C++, and the exact
    number type of CGAL.  A typedef name ([uint64_T], [mwSize],
    [itk::SizeValueType], ...) is not a type of its own: it stands for
    one of these. *)
Inductive scalar : Type :=
| void | bool_t | char_t | signed_char | unsigned_char
| short_t | unsigned_short | int_t | unsigned_int
| long_t | unsigned_long | long_long | unsigned_long_long
| float | double | long_double
| Lazy_exact_nt.

Inductive kernel : Type :=
| Simple_cartesian (FT : scalar)
| Exact_predicates_exact_constructions_kernel
| Exact_predicates_inexact_constructions_kernel.

Inductive type : Type :=
| Builtin (s : scalar)
| std_vector (T : type)
| itk_Size (VDimension : nat)
| itk_FixedArray (T : type) (VLength : nat)
| itk_Point (T : type) (VDimension : nat)
| itk_Vector (T : type) (VDimension : nat)
| itk_CovariantVector (T : type) (VDimension : nat)
| CGAL_Point_3 (K : kernel)
| CGAL_Direction_3 (K : kernel)
| CGAL_Vector_3 (K : kernel).

#[global] Instance scalar_eq_dec : EqDecision scalar.
Proof. solve_decision. Defined.

#[global] Instance kernel_eq_dec : EqDecision kernel.
Proof. solve_decision. Defined.

#[global] Instance type_eq_dec : EqDecision type.
Proof. solve_decision. Defined.

End Cpp.

Import Cpp.

(** ** The class template and its partial specialisations *)

(** The three class bodies of the header: the primary template (lines
    99-116), the body pasted by the macro [MethodsVectorWrapperItk]
    (lines 143-157) and the body generated by the macro
    [VectorWrapperCgal] (lines 271-286). *)
Inductive class_body : Type :=
| Primary
| MethodsVectorWrapperItk
| VectorWrapperCgal.

#[global] Instance class_body_eq_dec : EqDecision class_body.
Proof. solve_decision. Defined.

(** A partial specialisation
    [template<class VectorValueType, class MatlabValueType>
     class VectorWrapper<VectorValueType, P, MatlabValueType>]
    is given by its second argument [P], which may mention
    [VectorValueType], and by its body. *)
Definition partial_specialisation : Type := (type -> type) * class_body.

Definition partial_specialisations : list partial_specialisation :=
  [ (fun _ => itk_Size 2, MethodsVectorWrapperItk);
    (fun _ => itk_Size 3, MethodsVectorWrapperItk);
    (fun _ => itk_Size 4, MethodsVectorWrapperItk);
    (fun VectorValueType => itk_FixedArray VectorValueType 2, MethodsVectorWrapperItk);
    (fun VectorValueType => itk_FixedArray VectorValueType 3, MethodsVectorWrapperItk);
    (fun VectorValueType => itk_FixedArray VectorValueType 4, MethodsVectorWrapperItk);
    (fun VectorValueType => itk_Point VectorValueType 2, MethodsVectorWrapperItk);
    (fun VectorValueType => itk_Point VectorValueType 3, MethodsVectorWrapperItk);
    (fun VectorValueType => itk_Point VectorValueType 4, MethodsVectorWrapperItk);
    (fun VectorValueType => itk_Vector VectorValueType 2, MethodsVectorWrapperItk);
    (fun VectorValueType => itk_Vector VectorValueType 3, MethodsVectorWrapperItk);
    (fun VectorValueType => itk_Vector VectorValueType 4, MethodsVectorWrapperItk);
    (fun _ => CGAL_Point_3 (Simple_cartesian double), VectorWrapperCgal);
    (fun _ => CGAL_Direction_3 (Simple_cartesian double), VectorWrapperCgal);
    (fun _ => CGAL_Point_3 Exact_predicates_exact_constructions_kernel, VectorWrapperCgal);
    (fun _ => CGAL_Point_3 Exact_predicates_inexact_constructions_kernel, VectorWrapperCgal) ].

(** [VectorWrapper<VectorValueType, VectorType, MatlabValueType>] matches
    a partial specialisation when its pattern, instantiated with the first
    argument, is the second argument. *)
Definition matches (VectorValueType VectorType : type)
    (s : partial_specialisation) : bool :=
  bool_decide (s.1 VectorValueType = VectorType).

(** The class body an instantiation of [VectorWrapper] gets: that of the
    matching partial specialisation, or the primary template when none
    matches. *)
Definition select (VectorValueType VectorType : type) : class_body :=
  match find (matches VectorValueType VectorType) partial_specialisations with
  | Some s => s.2
  | None => Primary
  end.

(** The destination types as the specification lists them. *)
Definition listed_dimension (d : nat) : bool := bool_decide (d ∈ [2; 3; 4]).

Definition listed_family (VectorType : type) : class_body :=
  match VectorType with
  | itk_Size d | itk_FixedArray _ d | itk_Point _ d | itk_Vector _ d =>
      if listed_dimension d then MethodsVectorWrapperItk else Primary
  | CGAL_Point_3 K =>
      if bool_decide (K ∈ [Simple_cartesian double;
                           Exact_predicates_exact_constructions_kernel;
                           Exact_predicates_inexact_constructions_kernel])
      then VectorWrapperCgal else Primary
  | CGAL_Direction_3 K =>
      if bool_decide (K = Simple_cartesian double)
      then VectorWrapperCgal else Primary
  | _ => Primary
  end.

(** The first template argument a caller passes to reach the
    specialisation of a destination type: its element type where the
    pattern binds it, anything (here [void]) otherwise. *)
Definition value_type_for (VectorType : type) : type :=
  match VectorType with
  | itk_FixedArray T _ | itk_Point T _ | itk_Vector T _ => T
  | _ => Builtin void
  end.

(** The patterns that bind [VectorValueType] match only when the first
    template argument is the element type of the destination. *)
Definition value_type_agrees (VectorValueType VectorType : type) : bool :=
  match VectorType with
  | itk_FixedArray T _ | itk_Point T _ | itk_Vector T _ =>
      bool_decide (T = VectorValueType)
  | _ => true
  end.

(** The destination types of the partial specialisations, by body. *)
Definition destinations (b : class_body) (VectorValueType : type) : list type :=
  map (fun s : partial_specialisation => s.1 VectorValueType)
      (filter (fun s : partial_specialisation => s.2 = b) partial_specialisations).

(** ** Members of the three class bodies *)

Inductive parameter : Type :=
| const_mxArray_ptr   (* const mxArray *pm *)
| mwIndex_row         (* mwIndex row *)
| std_string.         (* std::string paramName *)

#[global] Instance parameter_eq_dec : EqDecision parameter.
Proof. solve_decision. Defined.

(** A member function: its name, the types of its parameters and its
    return type (spelt as in the source). *)
Record method : Type := Method {
  method_returns : string;
  method_name : string;
  method_parameters : list parameter
}.

#[global] Instance method_eq_dec : EqDecision method.
Proof. solve_decision. Defined.

Inductive member : Type :=
| Typedef (private : bool) (name : string)
| Constructor
| MemberFunction (m : method)
| DataMember (name : string) (T : type).

Definition ReadRowVector_decl : method :=
  Method "VectorType" "ReadRowVector" [const_mxArray_ptr; mwIndex_row; std_string].
Definition ReadRowVector_first_row_decl : method :=
  Method "VectorType" "ReadRowVector" [const_mxArray_ptr; std_string].
Definition ReadArrayAsVector_decl : method :=
  Method "VectorType" "ReadArrayAsVector" [const_mxArray_ptr; std_string].
Definition ReadSize_decl : method :=
  Method "VectorType" "ReadSize" [const_mxArray_ptr; std_string].
Definition ReadHalfSize_decl : method :=
  Method "VectorType" "ReadHalfSize" [const_mxArray_ptr; std_string].

Definition members (b : class_body) : list member :=
  match b with
  | Primary =>
      [ Constructor;
        MemberFunction ReadRowVector_decl;
        MemberFunction ReadArrayAsVector_decl;
        MemberFunction ReadSize_decl;
        MemberFunction ReadHalfSize_decl ]
  | MethodsVectorWrapperItk =>
      [ Typedef true "VectorType";
        Constructor;
        MemberFunction ReadRowVector_decl;
        MemberFunction ReadSize_decl;
        MemberFunction ReadHalfSize_decl ]
  | VectorWrapperCgal =>
      [ Typedef true "VectorType";
        Constructor;
        MemberFunction ReadRowVector_decl;
        MemberFunction ReadRowVector_first_row_decl ]
  end.

(** The read operations a class body exposes. *)
Definition read_operations (b : class_body) : list method :=
  omap (fun m => match m with MemberFunction f => Some f | _ => None end)
       (members b).

Definition data_members (b : class_body) : list (string * type) :=
  omap (fun m => match m with DataMember n T => Some (n, T) | _ => None end)
       (members b).

(** The read interface of [VectorWrapper<VectorValueType, VectorType, _>]. *)
Definition interface (VectorValueType VectorType : type) : list method :=
  read_operations (select VectorValueType VectorType).

(** ** Matlab arrays and results of a read *)

Inductive mxClassID : Type :=
| mxCELL_CLASS | mxSTRUCT_CLASS | mxLOGICAL_CLASS | mxCHAR_CLASS
| mxDOUBLE_CLASS | mxSINGLE_CLASS
| mxINT8_CLASS | mxUINT8_CLASS | mxINT16_CLASS | mxUINT16_CLASS
| mxINT32_CLASS | mxUINT32_CLASS | mxINT64_CLASS | mxUINT64_CLASS.

#[global] Instance mxClassID_eq_dec : EqDecision mxClassID.
Proof. solve_decision. Defined.

(** What a [const mxArray *] gives access to: the class of the elements,
    the number of rows and of columns, and the data buffer, which Matlab
    stores column after column. *)
Record mxArray (value : Type) : Type := {
  mxGetClassID : mxClassID;
  mxGetM : nat;
  mxGetN : nat;
  mxGetData : list value
}.
Arguments mxGetClassID {value} _.
Arguments mxGetM {value} _.
Arguments mxGetN {value} _.
Arguments mxGetData {value} _.

Definition mwIndex : Type := nat.

(** ** The member functions of [VectorWrapper] *)

Section VectorWrapper.

(** [value]: the scalars of a Matlab buffer.  [R]: what a call of one of
    the read functions amounts to for its caller, that is the vector it
    returns or the error it leaves through. *)
Context {value R : Type}.

(** The functions the header declares and calls but does not define
    ([VectorWrapper.hxx] defines them): [ReadRowVector] of the primary
    template (line 107) and the free function templates [ReadItkRowVector]
    (lines 131-133) and [ReadCgalRowVector] (lines 267-269), with the
    template arguments first.  They are taken as parameters. *)
Record Hxx : Type := {
  VectorWrapper_ReadRowVector :
    type -> type -> type -> mxArray value -> mwIndex -> string -> R;
  ReadItkRowVector :
    type -> type -> type -> mxArray value -> mwIndex -> string -> R;
  ReadCgalRowVector :
    type -> type -> mxArray value -> mwIndex -> string -> R
}.

Context (hxx : Hxx).

(** Member functions run on a wrapper instance inside a MEX call.  [W]
    is everything such a call could change: the instance it is invoked
    on and the Matlab workspace.  A computation takes the state before
    and gives its result with the state after. *)
Context {W : Type}.

Definition call (A : Type) : Type := W -> A * W.

Definition ret {A : Type} (a : A) : call A := fun w => (a, w).

Context (VectorValueType VectorType MatlabValueType : type).

(** [ReadRowVector(pm, row, paramName)], a member of all three bodies. *)
Definition ReadRowVector (pm : mxArray value) (row : mwIndex)
    (paramName : string) : call R :=
  match select VectorValueType VectorType with
  | Primary =>
      ret (VectorWrapper_ReadRowVector hxx
             VectorValueType VectorType MatlabValueType pm row paramName)
  | MethodsVectorWrapperItk =>
      ret (ReadItkRowVector hxx
             VectorValueType VectorType MatlabValueType pm row paramName)
  | VectorWrapperCgal =>
      ret (ReadCgalRowVector hxx VectorType MatlabValueType pm row paramName)
  end.

(** [ReadRowVector(pm, paramName)].  [None]: the class has no such
    member and the call does not compile. *)
Definition ReadRowVector_first_row (pm : mxArray value)
    (paramName : string) : option (call R) :=
  match select VectorValueType VectorType with
  | Primary => None
  | MethodsVectorWrapperItk => None
  | VectorWrapperCgal =>
      Some (ret (ReadCgalRowVector hxx VectorType MatlabValueType pm 0 paramName))
  end.

End VectorWrapper.

Arguments Hxx : clear implicits.
Arguments call : clear implicits.

(** ** The row read of the specification *)

(** A read either returns, or leaves through an error that reaches the
    caller of the MEX function, or has no defined result. *)
Inductive outcome (E A : Type) : Type :=
| Returned (v : A)
| Raised (e : E)
| Undefined.
Arguments Returned {E A} v.
Arguments Raised {E A} e.
Arguments Undefined {E A}.

(** The two errors of the specification, with the name of the parameter
    they are reported for. *)
Inductive mismatch : Type :=
| TypeMismatch (paramName : string)
| SizeMismatch (paramName : string).

(** Reads of a data buffer, with the positions read, in order.  [None]:
    a position outside the buffer was asked for. *)
Definition access (A : Type) : Type := option A * list nat.

Definition access_ret {A : Type} (a : A) : access A := (Some a, []).

Definition access_bind {A B : Type} (m : access A) (f : A -> access B) : access B :=
  match m with
  | (Some a, reads) => let '(b, reads') := f a in (b, reads ++ reads')
  | (None, reads) => (None, reads)
  end.

Notation "'let*' x := m 'in' k" := (access_bind m (fun x => k))
  (at level 10, x name, m at level 100, k at level 200).

Section Buffer.

Context {value : Type}.

Definition mxGetData_at (pm : mxArray value) (i : nat) : access value :=
  (mxGetData pm !! i, [i]).

(** The scalar at row [r] and column [c] of a two-dimensional array. *)
Definition element (pm : mxArray value) (r c : nat) : option value :=
  if bool_decide (r < mxGetM pm /\ c < mxGetN pm)
  then mxGetData pm !! (c * mxGetM pm + r) else None.

(** A two-dimensional array whose buffer holds one scalar per position. *)
Definition two_dimensional (pm : mxArray value) : Prop :=
  length (mxGetData pm) = mxGetM pm * mxGetN pm.

End Buffer.

(** Modelled from the spec: the number of elements of a fixed-size
    destination (the template argument of the ITK classes, three
    coordinates for the CGAL ones); [None] for the other types. *)
Definition fixed_length (VectorType : type) : option nat :=
  match VectorType with
  | itk_Size d | itk_FixedArray _ d | itk_Point _ d | itk_Vector _ d
  | itk_CovariantVector _ d => Some d
  | CGAL_Point_3 _ | CGAL_Direction_3 _ | CGAL_Vector_3 _ => Some 3
  | _ => None
  end.

(** Modelled from the spec: the type of the elements of a destination
    ([itk::SizeValueType] for [itk::Size], the field type [FT] of the
    kernel for the CGAL classes). *)
Definition kernel_FT (K : kernel) : scalar :=
  match K with
  | Simple_cartesian FT => FT
  | Exact_predicates_exact_constructions_kernel => Lazy_exact_nt
  | Exact_predicates_inexact_constructions_kernel => double
  end.

Definition element_type (VectorType : type) : type :=
  match VectorType with
  | itk_Size _ => Builtin unsigned_long
  | std_vector T | itk_FixedArray T _ | itk_Point T _ | itk_Vector T _
  | itk_CovariantVector T _ => T
  | CGAL_Point_3 K | CGAL_Direction_3 K | CGAL_Vector_3 K => Builtin (kernel_FT K)
  | Builtin s => Builtin s
  end.

Section RowRead.

(** Modelled from the spec: the test of the missing code that finds "type/size
    mismatches" before the copy.  The specification does not say which
    arrays it counts as mismatched, so the test is a parameter: from
    [MatlabValueType], [VectorType], the array and the parameter name it
    gives the error to leave with, or [None] to let the copy run.
    [convert S T x] is the scalar [x] of type [S] converted to type [T],
    and [indeterminate] the content of an element not yet assigned. *)
Context {value : Type}.
Context (mismatched : type -> type -> mxArray value -> string -> option mismatch).
Context (convert : type -> type -> value -> value) (indeterminate : value).

Definition result : Type := outcome mismatch (list value) * list nat.

(** A mismatch leaves with its error before anything is read ("propagating
    type/size mismatches"); otherwise the copy runs.  A copy that asks for
    a position outside the buffer has no defined result. *)
Definition checked_read (test : option mismatch)
    (copy : access (list value)) : result :=
  match test with
  | Some e => (Raised e, [])
  | None =>
      match copy with
      | (Some v, reads) => (Returned v, reads)
      | (None, reads) => (Undefined, reads)
      end
  end.

(** The copy through the indexed setter: [n] elements from column [col]
    on, each assigned the converted scalar of row [row] in its column
    (Matlab stores the columns one after the other). *)
Fixpoint copy_row (S T : type) (pm : mxArray value) (row : mwIndex)
    (n col : nat) (v : list value) : access (list value) :=
  match n with
  | 0 => access_ret v
  | Datatypes.S n' =>
      let* x := mxGetData_at pm (col * mxGetM pm + row) in
      copy_row S T pm row n' (Datatypes.S col) (<[col := convert S T x]> v)
  end.

(** Modelled from the spec: the body of [ReadItkRowVector]
    ([VectorWrapper.hxx] is missing), "copy N scalar values from a row
    of a foreign matrix into a target type's ... indexed setter",
    "propagating type/size mismatches". *)
Definition spec_ReadItkRowVector (VectorValueType VectorType MatlabValueType : type)
    (pm : mxArray value) (row : mwIndex) (paramName : string) : result :=
  match fixed_length VectorType with
  | Some n =>
      checked_read (mismatched MatlabValueType VectorType pm paramName)
        (copy_row MatlabValueType (element_type VectorType) pm row n 0
           (replicate n indeterminate))
  | None => (Undefined, [])
  end.

(** Modelled from the spec: the body of [ReadCgalRowVector]
    ([VectorWrapper.hxx] is missing), "copy N scalar values from a row
    of a foreign matrix into a target type's constructor". *)
Definition spec_ReadCgalRowVector (VectorType MatlabValueType : type)
    (pm : mxArray value) (row : mwIndex) (paramName : string) : result :=
  let cv := convert MatlabValueType (element_type VectorType) in
  checked_read (mismatched MatlabValueType VectorType pm paramName)
    (let* x := mxGetData_at pm (0 * mxGetM pm + row) in
     let* y := mxGetData_at pm (1 * mxGetM pm + row) in
     let* z := mxGetData_at pm (2 * mxGetM pm + row) in
     access_ret [cv x; cv y; cv z]).

(** Modelled from the spec: the body of the default [ReadRowVector]
    ([VectorWrapper.hxx] is missing), a row read into a dynamically
    sized vector: as many elements as the array has columns. *)
Definition spec_ReadRowVector (VectorValueType VectorType MatlabValueType : type)
    (pm : mxArray value) (row : mwIndex) (paramName : string) : result :=
  checked_read (mismatched MatlabValueType VectorType pm paramName)
    (copy_row MatlabValueType (element_type VectorType) pm row (mxGetN pm) 0
       (replicate (mxGetN pm) indeterminate)).

Definition spec_hxx : Hxx value result := {|
  VectorWrapper_ReadRowVector := spec_ReadRowVector;
  ReadItkRowVector := spec_ReadItkRowVector;
  ReadCgalRowVector := spec_ReadCgalRowVector
|}.

End RowRead.

(** A 2 x 3 array of doubles, stored column after column:
    row 0 is 10 20 30 and row 1 is 11 21 31. *)
Definition sample : mxArray nat :=
  {| mxGetClassID := mxDOUBLE_CLASS; mxGetM := 2; mxGetN := 3;
     mxGetData := [10; 11; 20; 21; 30; 31] |}.

Definition keep : type -> type -> nat -> nat := fun _ _ x => x.

(** Two tests: one that finds no mismatch, and one that wants as many
    columns as the destination has elements. *)
Definition no_test : type -> type -> mxArray nat -> string -> option mismatch :=
  fun _ _ _ _ => None.

Definition same_width : type -> type -> mxArray nat -> string -> option mismatch :=
  fun _ VectorType pm paramName =>
    if bool_decide (fixed_length VectorType = Some (mxGetN pm))
    then None else Some (SizeMismatch paramName).

(** * Properties *)

(** ** Evaluation on concrete instantiations *)

Example select_Size3 : select (Builtin double) (itk_Size 3) = MethodsVectorWrapperItk.
Proof. reflexivity. Qed.

Example select_FixedArray_other_value_type :
  select (Builtin float) (itk_FixedArray (Builtin double) 2) = Primary.
Proof. reflexivity. Qed.

Example select_std_vector :
  select (Builtin double) (std_vector (Builtin double)) = Primary.
Proof. reflexivity. Qed.

Example select_Size5 : select (Builtin double) (itk_Size 5) = Primary.
Proof. reflexivity. Qed.

Example select_Vector_3 :
  select (Builtin void) (CGAL_Vector_3 (Simple_cartesian double)) = Primary.
Proof. reflexivity. Qed.

Example select_Direction_3_void :
  select (Builtin void) (CGAL_Direction_3 (Simple_cartesian double)) = VectorWrapperCgal.
Proof. reflexivity. Qed.

Example sample_row_Size3 :
  ReadRowVector (spec_hxx no_test keep 0) (Builtin double) (itk_Size 3) (Builtin double)
    sample 1 "x" tt = (Returned [11; 21; 31], [1; 3; 5], tt).
Proof. reflexivity. Qed.

Example sample_row_Point_3 :
  ReadRowVector (spec_hxx no_test keep 0) (Builtin void)
    (CGAL_Point_3 (Simple_cartesian double)) (Builtin double)
    sample 0 "x" tt = (Returned [10; 20; 30], [0; 2; 4], tt).
Proof. reflexivity. Qed.

Example sample_row_Size2 :
  ReadRowVector (spec_hxx no_test keep 0) (Builtin double) (itk_Size 2) (Builtin double)
    sample 1 "x" tt = (Returned [11; 21], [1; 3], tt).
Proof. reflexivity. Qed.

Example sample_row_Size2_same_width :
  ReadRowVector (spec_hxx same_width keep 0) (Builtin double) (itk_Size 2) (Builtin double)
    sample 1 "x" tt = (Raised (SizeMismatch "x"), [], tt).
Proof. reflexivity. Qed.

Example sample_row_Size4_outside :
  ReadRowVector (spec_hxx no_test keep 0) (Builtin double) (itk_Size 4) (Builtin double)
    sample 1 "x" tt = (Undefined, [1; 3; 5; 7], tt).
Proof. reflexivity. Qed.

(** ** Selection of the class body *)

Lemma listed_dimension_cases (d : nat) :
  listed_dimension d = true -> d = 2 \/ d = 3 \/ d = 4.
Proof.
  unfold listed_dimension. intros H%bool_decide_eq_true.
  rewrite !elem_of_cons, elem_of_nil in H. tauto.
Qed.

Lemma listed_dimension_other (d : nat) :
  listed_dimension d = false -> d <> 2 /\ d <> 3 /\ d <> 4.
Proof.
  unfold listed_dimension. intros H%bool_decide_eq_false.
  rewrite !elem_of_cons, elem_of_nil in H. tauto.
Qed.

Ltac run_select :=
  unfold select, matches; cbn [find partial_specialisations fst snd];
  repeat (case_bool_decide; simplify_eq; try done).

Lemma select_listed (VectorValueType VectorType : type) :
  select VectorValueType VectorType =
  if value_type_agrees VectorValueType VectorType
  then listed_family VectorType else Primary.
Proof.
  destruct VectorType as [s|T|d|T d|T d|T d|T d|K|K|K];
    cbn [value_type_agrees listed_family].
  - run_select.
  - run_select.
  - destruct (listed_dimension d) eqn:Hd.
    + apply listed_dimension_cases in Hd as [->|[->| ->]]; reflexivity.
    + apply listed_dimension_other in Hd as (?&?&?). run_select.
  - case_bool_decide as HT.
    + subst T. destruct (listed_dimension d) eqn:Hd.
      * apply listed_dimension_cases in Hd as [->|[->| ->]]; run_select.
      * apply listed_dimension_other in Hd as (?&?&?). run_select.
    + run_select.
  - case_bool_decide as HT.
    + subst T. destruct (listed_dimension d) eqn:Hd.
      * apply listed_dimension_cases in Hd as [->|[->| ->]]; run_select.
      * apply listed_dimension_other in Hd as (?&?&?). run_select.
    + run_select.
  - case_bool_decide as HT.
    + subst T. destruct (listed_dimension d) eqn:Hd.
      * apply listed_dimension_cases in Hd as [->|[->| ->]]; run_select.
      * apply listed_dimension_other in Hd as (?&?&?). run_select.
    + run_select.
  - run_select.
  - destruct K as [[]| |]; reflexivity.
  - destruct K as [[]| |]; reflexivity.
  - run_select.
Qed.

(** No instantiation matches two partial specialisations, so the choice in
    [select] never depends on the order of the declarations. *)
Lemma partial_specialisations_disjoint (VectorValueType : type) :
  NoDup (map (fun s : partial_specialisation => s.1 VectorValueType)
             partial_specialisations).
Proof.
  cbn [map partial_specialisations fst].
  repeat (apply NoDup_cons; split;
          [rewrite ?elem_of_cons, elem_of_nil; intros H; intuition congruence|]).
  apply NoDup_nil_2.
Qed.

Lemma destinations_Itk (VectorValueType : type) :
  destinations MethodsVectorWrapperItk VectorValueType =
  [ itk_Size 2; itk_Size 3; itk_Size 4;
    itk_FixedArray VectorValueType 2; itk_FixedArray VectorValueType 3;
    itk_FixedArray VectorValueType 4;
    itk_Point VectorValueType 2; itk_Point VectorValueType 3;
    itk_Point VectorValueType 4;
    itk_Vector VectorValueType 2; itk_Vector VectorValueType 3;
    itk_Vector VectorValueType 4 ].
Proof. reflexivity. Qed.

Lemma destinations_Cgal (VectorValueType : type) :
  destinations VectorWrapperCgal VectorValueType =
  [ CGAL_Point_3 (Simple_cartesian double);
    CGAL_Direction_3 (Simple_cartesian double);
    CGAL_Point_3 Exact_predicates_exact_constructions_kernel;
    CGAL_Point_3 Exact_predicates_inexact_constructions_kernel ].
Proof. reflexivity. Qed.

Lemma destinations_Primary (VectorValueType : type) :
  destinations Primary VectorValueType = [].
Proof. reflexivity. Qed.

(** A destination of a partial specialisation selects the body of that
    specialisation. *)
Lemma select_destination (b : class_body) (VectorValueType VectorType : type) :
  VectorType ∈ destinations b VectorValueType ->
  select VectorValueType VectorType = b.
Proof.
  destruct b.
  - rewrite destinations_Primary. intros H. apply elem_of_nil in H as [].
  - rewrite destinations_Itk, !elem_of_cons, elem_of_nil.
    intros H. repeat (destruct H as [->|H]; [try reflexivity; run_select|]).
    destruct H.
  - rewrite destinations_Cgal, !elem_of_cons, elem_of_nil.
    intros H. repeat (destruct H as [->|H]; [reflexivity|]).
    destruct H.
Qed.

Lemma listed_family_value_type_for (VectorType : type) :
  value_type_agrees (value_type_for VectorType) VectorType = true.
Proof.
  destruct VectorType; cbn [value_type_agrees value_type_for];
    try reflexivity; apply bool_decide_eq_true; reflexivity.
Qed.

(** ** The destination types *)

(** C5.  The destination types the adapter reads into are those the
    specification lists: for every type [VectorType], an instantiation
    [VectorWrapper<VectorValueType, VectorType, _>] gets either the body
    the list gives for [VectorType] or the primary template; the listed
    body is reached (with the element type, where the specialisation binds
    it, as [VectorValueType]); so a type outside the list, for which the
    list gives the primary template, always gets the primary template, as
    does [std::vector]. *)
Theorem C5_destination_types (VectorType : type) :
  (forall VectorValueType,
      select VectorValueType VectorType = listed_family VectorType \/
      select VectorValueType VectorType = Primary) /\
  select (value_type_for VectorType) VectorType = listed_family VectorType /\
  (forall VectorValueType T, select VectorValueType (std_vector T) = Primary).
Proof.
  split; [|split].
  - intros VectorValueType. rewrite select_listed.
    destruct (value_type_agrees VectorValueType VectorType); [left|right]; reflexivity.
  - rewrite select_listed, listed_family_value_type_for. reflexivity.
  - intros VectorValueType T. rewrite select_listed. reflexivity.
Qed.

(** ** Dispatch *)

(** C1.  [ReadRowVector] only dispatches: for a destination of an ITK
    specialisation (itk::Size, itk::FixedArray, itk::Point, itk::Vector of
    dimension 2, 3 or 4) the member returns what
    [ReadItkRowVector<VectorValueType, VectorType, MatlabValueType>(pm, row, paramName)]
    returns, for a destination of a CGAL specialisation what
    [ReadCgalRowVector<VectorType, MatlabValueType>(pm, row, paramName)]
    returns, and in both cases the wrapper leaves the state as it was. *)
Theorem C1_ReadRowVector_dispatch {value R W : Type} (hxx : Hxx value R)
    (VectorValueType VectorType MatlabValueType : type)
    (pm : mxArray value) (row : mwIndex) (paramName : string) (w : W) :
  (VectorType ∈ destinations MethodsVectorWrapperItk VectorValueType ->
   ReadRowVector hxx VectorValueType VectorType MatlabValueType pm row paramName w =
   (ReadItkRowVector hxx VectorValueType VectorType MatlabValueType pm row paramName, w)) /\
  (VectorType ∈ destinations VectorWrapperCgal VectorValueType ->
   ReadRowVector hxx VectorValueType VectorType MatlabValueType pm row paramName w =
   (ReadCgalRowVector hxx VectorType MatlabValueType pm row paramName, w)).
Proof.
  split; intros Hd%select_destination; unfold ReadRowVector; rewrite Hd; reflexivity.
Qed.

Lemma C1_ReadRowVector_dispatch_witness :
  ReadRowVector (spec_hxx no_test keep 0) (Builtin double) (itk_Point (Builtin double) 3)
    (Builtin double) sample 1 "x" tt =
  (spec_ReadItkRowVector no_test keep 0 (Builtin double) (itk_Point (Builtin double) 3)
     (Builtin double) sample 1 "x", tt) /\
  ReadRowVector (spec_hxx no_test keep 0) (Builtin void)
    (CGAL_Point_3 Exact_predicates_exact_constructions_kernel)
    (Builtin double) sample 1 "x" tt =
  (spec_ReadCgalRowVector no_test keep
     (CGAL_Point_3 Exact_predicates_exact_constructions_kernel)
     (Builtin double) sample 1 "x", tt).
Proof.
  split.
  - apply (proj1 (C1_ReadRowVector_dispatch (spec_hxx no_test keep 0) (Builtin double)
             (itk_Point (Builtin double) 3) (Builtin double) sample 1 "x" tt)).
    vm_compute. do 7 right. left.
  - apply (proj2 (C1_ReadRowVector_dispatch (spec_hxx no_test keep 0) (Builtin void)
             (CGAL_Point_3 Exact_predicates_exact_constructions_kernel)
             (Builtin double) sample 1 "x" tt)).
    vm_compute. do 2 right. left.
Defined.

(** C7.  For a CGAL destination the result of [ReadRowVector] does not
    depend on [VectorValueType]: two instantiations of the wrapper that
    differ only in that argument compute the same function, so it can be
    set to [void]. *)
Theorem C7_Cgal_ignores_VectorValueType {value R W : Type} (hxx : Hxx value R)
    (VectorValueType VectorValueType' VectorType MatlabValueType : type)
    (pm : mxArray value) (row : mwIndex) (paramName : string) (w : W) :
  VectorType ∈ destinations VectorWrapperCgal VectorValueType ->
  ReadRowVector hxx VectorValueType VectorType MatlabValueType pm row paramName w =
  ReadRowVector hxx VectorValueType' VectorType MatlabValueType pm row paramName w.
Proof.
  intros Hd. unfold ReadRowVector.
  rewrite (select_destination VectorWrapperCgal VectorValueType VectorType Hd).
  rewrite (select_destination VectorWrapperCgal VectorValueType' VectorType Hd).
  reflexivity.
Qed.

Lemma C7_Cgal_ignores_VectorValueType_witness :
  ReadRowVector (spec_hxx no_test keep 0) (Builtin double)
    (CGAL_Direction_3 (Simple_cartesian double)) (Builtin double) sample 1 "x" tt =
  ReadRowVector (spec_hxx no_test keep 0) (Builtin void)
    (CGAL_Direction_3 (Simple_cartesian double)) (Builtin double) sample 1 "x" tt.
Proof.
  apply (C7_Cgal_ignores_VectorValueType (spec_hxx no_test keep 0) (Builtin double)
           (Builtin void) (CGAL_Direction_3 (Simple_cartesian double))
           (Builtin double) sample 1 "x" tt).
  vm_compute. right. left.
Defined.

(** C8.  For a CGAL destination the overload [ReadRowVector(pm, paramName)]
    is [ReadRowVector(pm, 0, paramName)]; an instantiation of the wrapper
    has this overload exactly when it gets the CGAL body. *)
Theorem C8_first_row_overload {value R W : Type} (hxx : Hxx value R)
    (VectorValueType VectorType MatlabValueType : type)
    (pm : mxArray value) (paramName : string) :
  (VectorType ∈ destinations VectorWrapperCgal VectorValueType ->
   ReadRowVector_first_row (W:=W) hxx VectorValueType VectorType MatlabValueType
     pm paramName =
   Some (ReadRowVector hxx VectorValueType VectorType MatlabValueType pm 0 paramName)) /\
  (is_Some (ReadRowVector_first_row (W:=W) hxx VectorValueType VectorType
              MatlabValueType pm paramName) <->
   select VectorValueType VectorType = VectorWrapperCgal) /\
  (ReadRowVector_first_row_decl ∈ interface VectorValueType VectorType <->
   select VectorValueType VectorType = VectorWrapperCgal).
Proof.
  split; [|split].
  - intros Hd%select_destination.
    unfold ReadRowVector_first_row, ReadRowVector. rewrite Hd. reflexivity.
  - unfold ReadRowVector_first_row.
    destruct (select VectorValueType VectorType); split;
      first [ reflexivity | intros [c Hc]; discriminate Hc
            | discriminate | intros _; eexists; reflexivity ].
  - unfold interface.
    destruct (select VectorValueType VectorType); split; intros H;
      try reflexivity; try discriminate H; try compute_done;
      exfalso; revert H; compute_done.
Qed.

Lemma C8_first_row_overload_witness :
  ReadRowVector_first_row (W:=unit) (spec_hxx no_test keep 0) (Builtin void)
    (CGAL_Point_3 (Simple_cartesian double)) (Builtin double) sample "x" =
  Some (ReadRowVector (spec_hxx no_test keep 0) (Builtin void)
          (CGAL_Point_3 (Simple_cartesian double)) (Builtin double) sample 0 "x").
Proof.
  apply (proj1 (C8_first_row_overload (W:=unit) (spec_hxx no_test keep 0) (Builtin void)
                  (CGAL_Point_3 (Simple_cartesian double)) (Builtin double)
                  sample "x")).
  vm_compute. left.
Defined.

(** ** The read interface *)

Ltac decide_declared :=
  let H := fresh "H" in
  split; intros H;
  first [ reflexivity | discriminate H | congruence | compute_done
        | exfalso; revert H; compute_done ].

(** C3, as the specification states it, fails for
    [VectorWrapper<double, itk::Size<2>, _>]: its read operations are not
    those of the default implementation ([ReadArrayAsVector] is missing). *)
Lemma C3_uniform_interface_counterexample :
  ~ (forall m : method,
        m ∈ interface (Builtin double) (itk_Size 2) <->
        m ∈ read_operations Primary).
Proof.
  intros H. destruct (H ReadArrayAsVector_decl) as [_ H'].
  assert (Hin : ReadArrayAsVector_decl ∈ read_operations Primary) by compute_done.
  apply H' in Hin. revert Hin. compute_done.
Qed.

(** C3, amended.  Every instantiation of [VectorWrapper] exposes
    [ReadRowVector(pm, row, paramName)] with the signature of the default
    implementation.  [ReadSize] and [ReadHalfSize] are exposed, with the
    signatures of the default, by the default and by the ITK
    specialisations, not by the CGAL ones; [ReadArrayAsVector] by the
    default only; [ReadRowVector(pm, paramName)] by the CGAL
    specialisations only; and no instantiation exposes another read
    operation. *)
Theorem C3_read_interface (VectorValueType VectorType : type) :
  ReadRowVector_decl ∈ interface VectorValueType VectorType /\
  (ReadSize_decl ∈ interface VectorValueType VectorType <->
   select VectorValueType VectorType <> VectorWrapperCgal) /\
  (ReadHalfSize_decl ∈ interface VectorValueType VectorType <->
   select VectorValueType VectorType <> VectorWrapperCgal) /\
  (ReadArrayAsVector_decl ∈ interface VectorValueType VectorType <->
   select VectorValueType VectorType = Primary) /\
  (ReadRowVector_first_row_decl ∈ interface VectorValueType VectorType <->
   select VectorValueType VectorType = VectorWrapperCgal) /\
  (forall m : method,
      m ∈ interface VectorValueType VectorType ->
      m ∈ ReadRowVector_first_row_decl :: read_operations Primary).
Proof.
  unfold interface.
  destruct (select VectorValueType VectorType);
    (split; [compute_done|]);
    do 4 (split; [decide_declared|]);
    apply Forall_forall; compute_done.
Qed.

(** ** The row read *)

Section RowReadProperties.

Context {value : Type}.
Context (mismatched : type -> type -> mxArray value -> string -> option mismatch).
Context (convert : type -> type -> value -> value) (indeterminate : value).

(** Every position of a two-dimensional array is inside its buffer, and
    the positions of further columns are outside. *)
Lemma position_in_buffer (pm : mxArray value) (r c : nat) :
  two_dimensional pm -> r < mxGetM pm -> c < mxGetN pm ->
  c * mxGetM pm + r < length (mxGetData pm).
Proof. unfold two_dimensional. intros -> Hr Hc. nia. Qed.

Lemma position_outside_buffer (pm : mxArray value) (r c : nat) :
  two_dimensional pm -> mxGetN pm <= c ->
  length (mxGetData pm) <= c * mxGetM pm + r.
Proof. unfold two_dimensional. intros -> Hc. nia. Qed.

Lemma element_in_range (pm : mxArray value) (r c : nat) :
  r < mxGetM pm -> c < mxGetN pm ->
  element pm r c = mxGetData pm !! (c * mxGetM pm + r).
Proof.
  intros Hr Hc. unfold element. rewrite bool_decide_eq_true_2; [reflexivity|].
  split; assumption.
Qed.

(** The loop over the columns: it stays inside the buffer, reads the
    positions of row [row] from column [col] on, once each and in order,
    assigns the converted scalars to the elements [col .. col + n - 1] and
    leaves the other elements alone. *)
Lemma copy_row_spec (S T : type) (pm : mxArray value) (row : mwIndex) :
  two_dimensional pm -> row < mxGetM pm ->
  forall (n col : nat) (v : list value),
    col + n <= mxGetN pm -> col + n <= length v ->
    exists v',
      copy_row convert S T pm row n col v =
        (Some v', map (fun j => j * mxGetM pm + row) (seq col n)) /\
      length v' = length v /\
      (forall j, col <= j < col + n ->
         exists x, element pm row j = Some x /\ v' !! j = Some (convert S T x)) /\
      (forall j, ~ (col <= j < col + n) -> v' !! j = v !! j).
Proof.
  intros Hpm Hrow. induction n as [|n IH]; intros col v Hcols Hlen.
  - exists v. cbn [copy_row seq map].
    split; [reflexivity|]. split; [reflexivity|]. split.
    + intros j Hj. lia.
    + reflexivity.
  - cbn [copy_row seq map]. unfold mxGetData_at.
    destruct (lookup_lt_is_Some_2 (mxGetData pm) (col * mxGetM pm + row)) as [x Hx].
    { apply position_in_buffer; [assumption..|lia]. }
    rewrite Hx. cbn [access_bind].
    destruct (IH (Datatypes.S col) (<[col := convert S T x]> v)) as (v' & Hrun & Hlen' & Hin & Hout).
    { lia. }
    { rewrite length_insert. lia. }
    exists v'. rewrite Hrun.
    split; [reflexivity|]. split; [|split].
    + rewrite Hlen', length_insert. reflexivity.
    + intros j Hj. destruct (decide (j = col)) as [->|Hne].
      * exists x. split.
        -- rewrite element_in_range; [assumption..|lia].
        -- rewrite Hout by lia. apply list_lookup_insert_eq. lia.
      * apply Hin. lia.
    + intros j Hj. rewrite Hout by lia. apply list_lookup_insert_ne. lia.
Qed.

(** A loop that runs past the last column asks for a position outside
    the buffer. *)
Lemma copy_row_outside (S T : type) (pm : mxArray value) (row : mwIndex) :
  two_dimensional pm -> row < mxGetM pm ->
  forall (n col : nat) (v : list value),
    col <= mxGetN pm < col + n ->
    (copy_row convert S T pm row n col v).1 = None.
Proof.
  intros Hpm Hrow. induction n as [|n IH]; intros col v Hcols; [lia|].
  cbn [copy_row]. unfold mxGetData_at.
  destruct (decide (col = mxGetN pm)) as [Heq|Hne].
  - rewrite (lookup_ge_None_2 (mxGetData pm) (col * mxGetM pm + row)); [reflexivity|].
    apply position_outside_buffer; [assumption|lia].
  - destruct (lookup_lt_is_Some_2 (mxGetData pm) (col * mxGetM pm + row)) as [x Hx].
    { apply position_in_buffer; [assumption..|lia]. }
    rewrite Hx. cbn [access_bind].
    specialize (IH (Datatypes.S col) (<[col := convert S T x]> v)).
    destruct (copy_row convert S T pm row n (Datatypes.S col) _) as [b reads].
    cbn [fst] in *. apply IH. lia.
Qed.

(** The copy of the first [n] columns from a fresh vector. *)
Lemma copy_first_spec (S T : type) (pm : mxArray value) (row : mwIndex) (n : nat) :
  two_dimensional pm -> row < mxGetM pm -> n <= mxGetN pm ->
  exists v,
    copy_row convert S T pm row n 0 (replicate n indeterminate) =
      (Some v, map (fun j => j * mxGetM pm + row) (seq 0 n)) /\
    length v = n /\
    forall j, j < n ->
      exists x, element pm row j = Some x /\ v !! j = Some (convert S T x).
Proof.
  intros Hpm Hrow Hn.
  destruct (copy_row_spec S T pm row Hpm Hrow n 0 (replicate n indeterminate))
    as (v & Hrun & Hlen & Hin & _).
  { lia. }
  { rewrite length_replicate. lia. }
  exists v. split; [exact Hrun|]. split.
  - rewrite Hlen. apply length_replicate.
  - intros j Hj. apply Hin. lia.
Qed.

(** The three reads of the constructor call. *)
Lemma construct_spec (S T : type) (pm : mxArray value) (row : mwIndex) :
  two_dimensional pm -> row < mxGetM pm -> 3 <= mxGetN pm ->
  exists v,
    (let* x := mxGetData_at pm (0 * mxGetM pm + row) in
     let* y := mxGetData_at pm (1 * mxGetM pm + row) in
     let* z := mxGetData_at pm (2 * mxGetM pm + row) in
     access_ret [convert S T x; convert S T y; convert S T z]) =
      (Some v, map (fun j => j * mxGetM pm + row) (seq 0 3)) /\
    length v = 3 /\
    forall j, j < 3 ->
      exists x, element pm row j = Some x /\ v !! j = Some (convert S T x).
Proof.
  intros Hpm Hrow Hn. unfold mxGetData_at.
  destruct (lookup_lt_is_Some_2 (mxGetData pm) (0 * mxGetM pm + row)) as [x Hx].
  { apply position_in_buffer; [assumption..|lia]. }
  destruct (lookup_lt_is_Some_2 (mxGetData pm) (1 * mxGetM pm + row)) as [y Hy].
  { apply position_in_buffer; [assumption..|lia]. }
  destruct (lookup_lt_is_Some_2 (mxGetData pm) (2 * mxGetM pm + row)) as [z Hz].
  { apply position_in_buffer; [assumption..|lia]. }
  rewrite Hx, Hy, Hz. cbn [access_bind access_ret app].
  eexists. split; [reflexivity|]. split; [reflexivity|].
  intros j Hj.
  destruct j as [|[|[|j]]]; [exists x|exists y|exists z|lia];
    (split; [rewrite element_in_range; [assumption..|lia]|reflexivity]).
Qed.

Lemma construct_outside (S T : type) (pm : mxArray value) (row : mwIndex) :
  two_dimensional pm -> row < mxGetM pm -> mxGetN pm < 3 ->
  (let* x := mxGetData_at pm (0 * mxGetM pm + row) in
   let* y := mxGetData_at pm (1 * mxGetM pm + row) in
   let* z := mxGetData_at pm (2 * mxGetM pm + row) in
   access_ret [convert S T x; convert S T y; convert S T z]).1 = None.
Proof.
  intros Hpm Hrow Hn. unfold mxGetData_at.
  rewrite (lookup_ge_None_2 (mxGetData pm) (2 * mxGetM pm + row))
    by (apply position_outside_buffer; [assumption|lia]).
  destruct (mxGetData pm !! (0 * mxGetM pm + row)) as [x|]; [|reflexivity].
  cbn [access_bind].
  destruct (mxGetData pm !! (1 * mxGetM pm + row)) as [y|]; reflexivity.
Qed.

(** The body selected for a CGAL destination reads three coordinates. *)
Lemma fixed_length_Cgal (VectorValueType VectorType : type) :
  select VectorValueType VectorType = VectorWrapperCgal ->
  fixed_length VectorType = Some 3.
Proof.
  rewrite select_listed.
  destruct VectorType; cbn [value_type_agrees listed_family fixed_length];
    repeat case_match; congruence.
Qed.

(** A checked read returns a vector exactly when the test finds no
    mismatch and the copy stays inside the buffer. *)
Lemma checked_read_Returned (test : option mismatch)
    (copy : access (list value)) (v : list value) (reads : list nat) :
  checked_read test copy = (Returned v, reads) <->
  test = None /\ copy = (Some v, reads).
Proof.
  unfold checked_read. destruct test as [e|], copy as [[v'|] reads'];
    split; try (intros [? ?]); try intros ?; simplify_eq; done.
Qed.

(** What a checked read of [n] columns does, given that its copy reads
    the first [n] scalars of the row when the array has them and leaves
    the buffer when it has not. *)
Lemma checked_read_row (S T : type) (pm : mxArray value) (r : mwIndex) (n : nat)
    (test : option mismatch) (copy : access (list value)) :
  (n <= mxGetN pm ->
   exists v,
     copy = (Some v, map (fun j => j * mxGetM pm + r) (seq 0 n)) /\
     length v = n /\
     forall j, j < n ->
       exists x, element pm r j = Some x /\ v !! j = Some (convert S T x)) ->
  (mxGetN pm < n -> copy.1 = None) ->
  (forall v reads,
      checked_read test copy = (Returned v, reads) ->
      length v = n /\
      (forall j, j < n ->
         exists x, element pm r j = Some x /\ v !! j = Some (convert S T x)) /\
      reads = map (fun j => j * mxGetM pm + r) (seq 0 n)) /\
  (test = None -> n <= mxGetN pm ->
   exists v reads, checked_read test copy = (Returned v, reads)).
Proof.
  intros Hin Hout. split.
  - intros v reads [_ Hcopy]%checked_read_Returned.
    destruct (decide (n <= mxGetN pm)) as [Hn|Hn].
    + destruct (Hin Hn) as (v' & Hrun & Hlen & Hv).
      rewrite Hrun in Hcopy. simplify_eq. done.
    + rewrite Hcopy in Hout. cbn in Hout. discriminate Hout. lia.
  - intros -> Hn. destruct (Hin Hn) as (v & Hrun & _).
    exists v, (map (fun j => j * mxGetM pm + r) (seq 0 n)).
    apply checked_read_Returned. done.
Qed.

End RowReadProperties.



(** * Further properties of the header *)

(** ** Unambiguous selection *)

(** An instantiation of [VectorWrapper] never matches two of the sixteen
    partial specialisations (lines 159-246 and 289-292): two declarations
    that both match are one and the same, so no instantiation is
    ambiguous. *)
Theorem partial_specialisations_unambiguous
    (VectorValueType VectorType : type) (s1 s2 : partial_specialisation) :
  s1 ∈ partial_specialisations ->
  s2 ∈ partial_specialisations ->
  matches VectorValueType VectorType s1 = true ->
  matches VectorValueType VectorType s2 = true ->
  s1 = s2.
Proof.
  intros [i Hi]%list_elem_of_lookup_1 [j Hj]%list_elem_of_lookup_1 H1 H2.
  unfold matches in H1, H2.
  apply bool_decide_eq_true in H1. apply bool_decide_eq_true in H2.
  pose proof (partial_specialisations_disjoint VectorValueType) as Hnd.
  rewrite NoDup_alt in Hnd.
  assert (i = j) as ->.
  { apply (Hnd i j VectorType).
    - change (map ?f ?l) with (f <$> l). rewrite list_lookup_fmap, Hi. cbn. congruence.
    - change (map ?f ?l) with (f <$> l). rewrite list_lookup_fmap, Hj. cbn. congruence. }
  congruence.
Qed.

Lemma partial_specialisations_unambiguous_witness :
  ((fun _ : type => itk_Size 3, MethodsVectorWrapperItk) : partial_specialisation) =
  (fun _ : type => itk_Size 3, MethodsVectorWrapperItk).
Proof.
  apply (partial_specialisations_unambiguous (Builtin double) (itk_Size 3)).
  - right. left.
  - right. left.
  - reflexivity.
  - reflexivity.
Defined.

(** ** Which instantiations get which body *)

(** The body selected for an instantiation comes from a partial
    specialisation whose pattern is the destination type. *)
Lemma select_from_destination (b : class_body) (VectorValueType VectorType : type) :
  b <> Primary ->
  select VectorValueType VectorType = b ->
  VectorType ∈ destinations b VectorValueType.
Proof.
  intros Hb. unfold select.
  destruct (find _ _) as [s|] eqn:Hfind; [|congruence].
  intros <-. apply find_some in Hfind as [Hin Hm].
  unfold matches in Hm. apply bool_decide_eq_true in Hm.
  unfold destinations. change (map ?f ?l) with (f <$> l).
  apply list_elem_of_fmap. exists s. split; [congruence|].
  apply list_elem_of_filter. split; [reflexivity|].
  apply list_elem_of_In. exact Hin.
Qed.

(** An instantiation [VectorWrapper<VectorValueType, VectorType, _>] gets
    the ITK body exactly when [VectorType] is [itk::Size<d>], or
    [itk::FixedArray], [itk::Point] or [itk::Vector] with the element type
    [VectorValueType] and the dimension [d], for [d] one of 2, 3 and 4; it
    gets the CGAL body exactly when [VectorType] is one of the four CGAL
    types, whatever [VectorValueType] is. *)
Theorem select_body_iff (VectorValueType VectorType : type) :
  (select VectorValueType VectorType = MethodsVectorWrapperItk <->
   exists d, d ∈ [2; 3; 4] /\
     VectorType ∈ [ itk_Size d; itk_FixedArray VectorValueType d;
                    itk_Point VectorValueType d; itk_Vector VectorValueType d ]) /\
  (select VectorValueType VectorType = VectorWrapperCgal <->
   VectorType ∈ [ CGAL_Point_3 (Simple_cartesian double);
                  CGAL_Direction_3 (Simple_cartesian double);
                  CGAL_Point_3 Exact_predicates_exact_constructions_kernel;
                  CGAL_Point_3 Exact_predicates_inexact_constructions_kernel ]).
Proof.
  split; split.
  - intros H%select_from_destination; [|discriminate].
    rewrite destinations_Itk, !elem_of_cons, elem_of_nil in H.
    destruct H as [->|[->|[->|[->|[->|[->|[->|[->|[->|[->|[->|[->|[]]]]]]]]]]]]];
      first [ exists 2; split; compute_done || (rewrite !elem_of_cons; tauto)
            | exists 3; split; compute_done || (rewrite !elem_of_cons; tauto)
            | exists 4; split; compute_done || (rewrite !elem_of_cons; tauto) ].
  - intros (d & Hd & HV). apply select_destination.
    rewrite destinations_Itk.
    rewrite !elem_of_cons, elem_of_nil in Hd.
    rewrite !elem_of_cons, elem_of_nil in HV.
    rewrite !elem_of_cons.
    destruct Hd as [->|[->|[->|[]]]]; destruct HV as [->|[->|[->|[->|[]]]]]; tauto.
  - intros H%select_from_destination; [|discriminate].
    rewrite destinations_Cgal in H. exact H.
  - intros H. apply select_destination. rewrite destinations_Cgal. exact H.
Qed.

(** When the first template argument is not the element type of the
    destination, [itk::FixedArray], [itk::Point] and [itk::Vector] match
    no partial specialisation, in any dimension: the instantiation is the
    primary template, written for [std::vector]. *)
Theorem select_value_type_mismatch (VectorValueType T : type) (d : nat) :
  T <> VectorValueType ->
  select VectorValueType (itk_FixedArray T d) = Primary /\
  select VectorValueType (itk_Point T d) = Primary /\
  select VectorValueType (itk_Vector T d) = Primary.
Proof.
  intros HT. rewrite !select_listed. cbn [value_type_agrees].
  rewrite bool_decide_eq_false_2 by exact HT. done.
Qed.

Lemma select_value_type_mismatch_witness :
  select (Builtin float) (itk_FixedArray (Builtin double) 3) = Primary /\
  select (Builtin float) (itk_Point (Builtin double) 3) = Primary /\
  select (Builtin float) (itk_Vector (Builtin double) 3) = Primary.
Proof.
  apply (select_value_type_mismatch (Builtin float) (Builtin double) 3).
  discriminate.
Defined.

(** ** The first-row overload *)

(** For a CGAL destination the overload [ReadRowVector(pm, paramName)]
    does not depend on [VectorValueType] either: it is a member for every
    value of that argument, and the same function for any two
    (lines 282-285). *)
Theorem Cgal_first_row_ignores_VectorValueType {value R W : Type} (hxx : Hxx value R)
    (VectorValueType VectorValueType' VectorType MatlabValueType : type)
    (pm : mxArray value) (paramName : string) :
  VectorType ∈ destinations VectorWrapperCgal VectorValueType ->
  is_Some (ReadRowVector_first_row (W:=W) hxx VectorValueType VectorType
             MatlabValueType pm paramName) /\
  ReadRowVector_first_row (W:=W) hxx VectorValueType VectorType
    MatlabValueType pm paramName =
  ReadRowVector_first_row (W:=W) hxx VectorValueType' VectorType
    MatlabValueType pm paramName.
Proof.
  intros Hd. unfold ReadRowVector_first_row.
  rewrite (select_destination VectorWrapperCgal VectorValueType VectorType Hd).
  rewrite (select_destination VectorWrapperCgal VectorValueType' VectorType Hd).
  split; [eexists|]; reflexivity.
Qed.

Lemma Cgal_first_row_ignores_VectorValueType_witness :
  is_Some (ReadRowVector_first_row (W:=unit) (spec_hxx no_test keep 0) (Builtin double)
             (CGAL_Point_3 Exact_predicates_inexact_constructions_kernel)
             (Builtin double) sample "x") /\
  ReadRowVector_first_row (W:=unit) (spec_hxx no_test keep 0) (Builtin double)
    (CGAL_Point_3 Exact_predicates_inexact_constructions_kernel)
    (Builtin double) sample "x" =
  ReadRowVector_first_row (W:=unit) (spec_hxx no_test keep 0) (Builtin void)
    (CGAL_Point_3 Exact_predicates_inexact_constructions_kernel)
    (Builtin double) sample "x".
Proof.
  apply (Cgal_first_row_ignores_VectorValueType (W:=unit) (spec_hxx no_test keep 0)
           (Builtin double) (Builtin void)
           (CGAL_Point_3 Exact_predicates_inexact_constructions_kernel)
           (Builtin double) sample "x").
  vm_compute. do 3 right. left.
Defined.
